(** * The MCP server command: exposing the CLI's tool registry over MCP

    A shallow embedding of [packages/cli/src/commands/mcp/server.ts].

    The command's handler loads the CLI configuration, asks it for the
    tool registry, creates an [McpServer], registers one MCP tool per
    registry tool and connects the server to a stdio transport.  The
    callback registered for a tool builds an invocation, executes it and
    turns the outcome into an MCP response.

    Modelling choices, in the order the file introduces them:

    - JavaScript values are an inductive type [JsValue].  Primitives,
      arrays and plain objects are spelled out; objects are association
      lists in the object's own property order.  Every other value (a
      function, an object with a [toJSON] method or a string conversion
      of its own, an object without prototype, a structure that
      contains itself) is [JOther], given by what the two conversions
      the callback applies do on it.
    - Numbers are the safe integers, [-0], [NaN] and the two infinities;
      any other finite number is given by its [Number::toString] text.
    - Strings are [String.string]; each character is rendered by
      [QuoteJSONString] the way it is for the code units below [0x80],
      and passed through otherwise.
    - A JavaScript completion is [Normal v] or [Throw e]; awaiting a
      promise is modelled by the completion it settles to.
    - [AbortController]s live in a heap that the callback threads
      through; an [AbortSignal] is the address of its controller.
    - The handler runs in a small state-and-exception monad over the
      process state: the error stream and the server. *)

From Stdlib Require Import List String Ascii ZArith Lia Bool Eqdep_dec.
From Stdlib Require Import Decimal DecimalString DecimalZ DecimalPos.
Import ListNotations.

#[local] Open Scope list_scope.
#[local] Open Scope string_scope.

Set Warnings "-register-all".

(** ** JavaScript values *)

(** [Number.isSafeInteger] *)
Definition safe_integer (z : Z) : bool :=
  Z.leb (Z.abs z) 9007199254740991.

(** The decimal digits of an integer, with its sign. *)
Definition decimal (z : Z) : string :=
  NilEmpty.string_of_int (Z.to_int z).

(** The characters of a number's text, and the ones it can start
    with. *)
Definition numeral_char (c : ascii) : bool :=
  let n := N_of_ascii c in
  orb (orb (N.eqb n 45) (andb (N.leb 48 n) (N.leb n 57)))
      (orb (N.eqb n 43) (orb (N.eqb n 46) (N.eqb n 101))).

Definition numeral_head (c : ascii) : bool :=
  let n := N_of_ascii c in
  orb (N.eqb n 45) (andb (N.leb 48 n) (N.leb n 57)).

Fixpoint all_chars (P : ascii -> bool) (s : string) : bool :=
  match s with
  | EmptyString => true
  | String c rest => andb (P c) (all_chars P rest)
  end.

(** Whether [t] is the text of a safe integer. *)
Definition safe_integer_text (t : string) : bool :=
  match NilEmpty.int_of_string t with
  | Some d =>
      andb (safe_integer (Z.of_int d)) (String.eqb (decimal (Z.of_int d)) t)
  | None => false
  end.

(** What the text of a finite number other than a safe integer has to
    be like: digits, sign, point and exponent only, starting with a
    digit or a sign, and not the text of a safe integer. *)
Definition number_text (t : string) : bool :=
  match t with
  | EmptyString => false
  | String c _ =>
      andb (numeral_head c)
        (andb (all_chars numeral_char t) (negb (safe_integer_text t)))
  end.

(** A finite number is a safe integer, or any other finite number,
    which is given by the text [Number::toString] has for it. *)
Inductive JsNumber : Type :=
| Finite (z : Z) (safe : safe_integer z = true)
| OtherFinite (text : string) (well_formed : number_text text = true)
| NegZero
| NaN
| Infinity (negative : bool).

Inductive Outcome (E A : Type) : Type :=
| Normal (a : A)
| Throw (e : E).

Arguments Normal {E A} a.
Arguments Throw {E A} e.

(** Values, and what a [throw] carries: an instance of [Error] whose
    [message] is a string, an instance of [Error] whose [message] holds
    some other value, a value on which [instanceof Error] or the reading
    of [message] itself throws, or any value that is not an [Error]. *)
Inductive JsValue : Type :=
| JUndefined
| JNull
| JBool (b : bool)
| JNumber (n : JsNumber)
| JBigInt (z : Z)
| JString (s : string)
| JSymbol (description : string)
| JArray (elements : list JsValue)
| JObject (properties : list (string * JsValue))
| JOther (string_conversion : Outcome Thrown string)
         (json : Outcome Thrown (option string))
with Thrown : Type :=
| ErrorInstance (message : string)
| ErrorWithMessage (message : JsValue)
| Hostile (e : Thrown)
| NonError (v : JsValue).

Definition Completion : Type -> Type := Outcome Thrown.

(** ** Primitive conversions *)

(** [Number::toString] *)
Definition NumberToString (n : JsNumber) : string :=
  match n with
  | Finite z _ => decimal z
  | OtherFinite text _ => text
  | NegZero => "0"
  | NaN => "NaN"
  | Infinity false => "Infinity"
  | Infinity true => "-Infinity"
  end.

Definition isFinite (n : JsNumber) : bool :=
  match n with
  | Finite _ _ | OtherFinite _ _ | NegZero => true
  | NaN | Infinity _ => false
  end.

(** [ToBoolean] *)
Definition truthy (v : JsValue) : bool :=
  match v with
  | JUndefined | JNull => false
  | JBool b => b
  | JNumber (Finite z _) => negb (Z.eqb z 0)
  | JNumber NegZero | JNumber NaN => false
  | JNumber (OtherFinite _ _) | JNumber (Infinity _) => true
  | JBigInt z => negb (Z.eqb z 0)
  | JString s => negb (String.eqb s EmptyString)
  | JSymbol _ | JArray _ | JObject _ | JOther _ _ => true
  end.

(** [a || b] on values *)
Definition js_or (a b : JsValue) : JsValue :=
  if truthy a then a else b.

(** [a || b] where [a] is a possibly missing string *)
Definition string_or (a : option string) (b : string) : string :=
  match a with
  | Some s => if String.eqb s EmptyString then b else s
  | None => b
  end.

Fixpoint join (sep : string) (parts : list string) : string :=
  match parts with
  | [] => EmptyString
  | [p] => p
  | p :: rest => p ++ sep ++ join sep rest
  end.

(** Evaluates [f] on the elements in order and stops at the first one
    that throws. *)
Section Collect.
Context {A B : Type} (f : A -> Completion B).

Fixpoint collect (l : list A) : Completion (list B) :=
  match l with
  | [] => Normal []
  | x :: rest =>
      match f x with
      | Throw e => Throw e
      | Normal b =>
          match collect rest with
          | Throw e => Throw e
          | Normal bs => Normal (b :: bs)
          end
      end
  end.

End Collect.

Definition cannot_convert_symbol : Thrown :=
  ErrorInstance "Cannot convert a Symbol value to a string".

(** [ToString], the conversion of a template literal and of
    [Array.prototype.join].  An array is joined with commas, [undefined]
    and [null] elements giving the empty string; a plain object is
    ["[object Object]"]; a symbol cannot be converted. *)
Fixpoint ToString (v : JsValue) : Completion string :=
  match v with
  | JUndefined => Normal "undefined"
  | JNull => Normal "null"
  | JBool true => Normal "true"
  | JBool false => Normal "false"
  | JNumber n => Normal (NumberToString n)
  | JBigInt z => Normal (decimal z)
  | JString s => Normal s
  | JSymbol _ => Throw cannot_convert_symbol
  | JArray l =>
      match collect (fun x => match x with
                              | JUndefined | JNull => Normal EmptyString
                              | _ => ToString x
                              end) l with
      | Throw e => Throw e
      | Normal parts => Normal (join "," parts)
      end
  | JObject _ => Normal "[object Object]"
  | JOther string_conversion _ => string_conversion
  end.

(** [String(v)]: as [ToString], except that a symbol is described. *)
Definition String_ (v : JsValue) : Completion string :=
  match v with
  | JSymbol description => Normal ("Symbol(" ++ description ++ ")")
  | _ => ToString v
  end.

(** ** [JSON.stringify] *)

Definition hex_digit (n : N) : ascii :=
  match n with
  | 0 => "0" | 1 => "1" | 2 => "2" | 3 => "3" | 4 => "4"
  | 5 => "5" | 6 => "6" | 7 => "7" | 8 => "8" | 9 => "9"
  | 10 => "a" | 11 => "b" | 12 => "c" | 13 => "d" | 14 => "e"
  | _ => "f"
  end%N%char.

Definition backslash : ascii := ascii_of_N 92.
Definition dquote : ascii := ascii_of_N 34.

(** The rendering of one code unit inside a JSON string literal. *)
Definition quote_char (c : ascii) : string :=
  let n := N_of_ascii c in
  let esc (x : ascii) := String backslash (String x EmptyString) in
  if N.eqb n 8 then esc "b"%char
  else if N.eqb n 9 then esc "t"%char
  else if N.eqb n 10 then esc "n"%char
  else if N.eqb n 12 then esc "f"%char
  else if N.eqb n 13 then esc "r"%char
  else if N.eqb n 34 then esc dquote
  else if N.eqb n 92 then esc backslash
  else if N.ltb n 32 then
    String backslash
      (String "u" (String "0" (String "0"
         (String (hex_digit (N.div n 16))
            (String (hex_digit (N.modulo n 16)) EmptyString)))))
  else String c EmptyString.

Fixpoint quote_chars (s : string) : string :=
  match s with
  | EmptyString => EmptyString
  | String c rest => quote_char c ++ quote_chars rest
  end.

Definition QuoteJSONString (s : string) : string :=
  String dquote (quote_chars s ++ String dquote EmptyString).

Definition cannot_serialize_bigint : Thrown :=
  ErrorInstance "Do not know how to serialize a BigInt".

(** An array element without a JSON rendering is written [null]. *)
Definition array_element (o : option string) : string :=
  match o with
  | Some s => s
  | None => "null"
  end.

(** An object member without a JSON rendering is left out. *)
Definition object_member (ko : string * option string) : list string :=
  match ko with
  | (k, Some s) => [QuoteJSONString k ++ ":" ++ s]
  | (_, None) => []
  end.

(** [SerializeJSONProperty] without replacer or indentation.  [None] is
    JavaScript's [undefined]: the value has no JSON rendering.  For a
    [JOther] the outcome is the one the value comes with. *)
Fixpoint SerializeJSONProperty (v : JsValue) : Completion (option string) :=
  match v with
  | JUndefined => Normal None
  | JNull => Normal (Some "null")
  | JBool true => Normal (Some "true")
  | JBool false => Normal (Some "false")
  | JNumber n =>
      Normal (Some (if isFinite n then NumberToString n else "null"))
  | JBigInt _ => Throw cannot_serialize_bigint
  | JString s => Normal (Some (QuoteJSONString s))
  | JSymbol _ => Normal None
  | JOther _ json => json
  | JArray l =>
      match collect SerializeJSONProperty l with
      | Throw e => Throw e
      | Normal os =>
          Normal (Some ("[" ++ join "," (map array_element os) ++ "]"))
      end
  | JObject props =>
      match collect (fun kx : string * JsValue =>
                       let (k, x) := kx in
                       match SerializeJSONProperty x with
                       | Throw e => Throw e
                       | Normal o => Normal (k, o)
                       end) props with
      | Throw e => Throw e
      | Normal kos =>
          Normal (Some ("{" ++ join "," (flat_map object_member kos) ++ "}"))
      end
  end.

Definition JSON_stringify (v : JsValue) : Completion (option string) :=
  SerializeJSONProperty v.

(** [quoted s] is [s] between two double quotes, for writing expected
    texts. *)
Definition quoted (s : string) : string :=
  String dquote (s ++ String dquote EmptyString).

(** ** Tools, as the adapter sees them *)

(** [ToolResult.error] *)
Record ToolError : Type := {
  message : string;
}.

(** The fields of a tool result that the adapter reads. *)
Record ToolResult : Type := {
  error : option ToolError;
  llmContent : JsValue;
}.

Record AbortController : Type := {
  aborted : bool;
}.

(** The controllers created so far, by address. *)
Definition Heap : Type := list AbortController.

(** A signal is the address of the controller it belongs to. *)
Definition AbortSignal : Type := nat.

Definition signal_aborted (h : Heap) (s : AbortSignal) : option bool :=
  option_map aborted (nth_error h s).

(** [controller.abort()]: the only operation that triggers a signal. *)
Fixpoint abort (h : Heap) (s : AbortSignal) : Heap :=
  match h, s with
  | [] , _ => []
  | _ :: rest, O => {| aborted := true |} :: rest
  | c :: rest, S s' => c :: abort rest s'
  end.

(** [new AbortController()]: the new heap and the controller's signal. *)
Definition new_AbortController (h : Heap) : Heap * AbortSignal :=
  ((h ++ [{| aborted := false |}])%list, List.length h).

(** An invocation may read the state of the signals while it runs. *)
Record ToolInvocation : Type := {
  execute : AbortSignal -> Heap -> Completion ToolResult;
}.

Record Tool : Type := {
  name : string;
  description : option string;
  build : JsValue -> Completion ToolInvocation;
}.

(** ** MCP responses *)

Record ContentItem : Type := {
  type : string;
  text : option string;
}.

(** [isError = None] is a response object without the [isError] key. *)
Record Response : Type := {
  content : list ContentItem;
  isError : option bool;
}.

Definition text_item (t : option string) : ContentItem :=
  {| type := "text"; text := t |}.

(** ** The callback registered for a tool *)

(** [error instanceof Error ? error.message : String(error)] *)
Definition caught_message (e : Thrown) : Completion JsValue :=
  match e with
  | ErrorInstance m => Normal (JString m)
  | ErrorWithMessage m => Normal m
  | Hostile e' => Throw e'
  | NonError v =>
      match String_ v with
      | Throw e' => Throw e'
      | Normal s => Normal (JString s)
      end
  end.

Definition internal_error_response (m : string) : Response :=
  {| content := [text_item (Some ("Internal Error: " ++ m))];
     isError := Some true |}.

(** The [catch] block: the message is taken from the thrown value and
    spliced into the text.  Either step can throw. *)
Definition catch_block (e : Thrown) : Completion Response :=
  match caught_message e with
  | Throw e' => Throw e'
  | Normal message =>
      match ToString message with
      | Throw e' => Throw e'
      | Normal m => Normal (internal_error_response m)
      end
  end.

Definition error_response (err : ToolError) : Response :=
  {| content := [text_item (Some ("Error: " ++ message err))];
     isError := Some true |}.

(** The conversion of [llmContent] to the response text. *)
Definition textContent (c : JsValue) : Completion (option string) :=
  match c with
  | JString s => Normal (Some s)
  | _ => JSON_stringify c
  end.

(** What follows the [await] inside the [try] block. *)
Definition respond (result : ToolResult) : Completion Response :=
  match error result with
  | Some err => Normal (error_response err)
  | None =>
      match textContent (llmContent result) with
      | Throw e => Throw e
      | Normal t => Normal {| content := [text_item t]; isError := None |}
      end
  end.

(** The body of the [try] block, on the heap [h]. *)
Definition try_block (tool : Tool) (args : JsValue) (h : Heap)
  : Completion Response * Heap :=
  match build tool (js_or args (JObject [])) with
  | Throw e => (Throw e, h)
  | Normal toolInvocation =>
      let (h', signal) := new_AbortController h in
      match execute toolInvocation signal h' with
      | Throw e => (Throw e, h')
      | Normal result => (respond result, h')
      end
  end.

(** [async (args) => { try { ... } catch (error) { ... } }] *)
Definition tool_callback (tool : Tool) (args : JsValue) (h : Heap)
  : Completion Response * Heap :=
  match try_block tool args h with
  | (Normal r, h') => (Normal r, h')
  | (Throw e, h') => (catch_block e, h')
  end.

(** ** The MCP server *)

Record ToolConfig : Type := {
  config_description : string;
  inputSchema : list (string * JsValue);
}.

Record RegisteredTool : Type := {
  registered_name : string;
  registered_config : ToolConfig;
  registered_callback : JsValue -> Heap -> Completion Response * Heap;
}.

Record McpServer : Type := {
  server_name : string;
  server_version : string;
  registeredTools : list RegisteredTool;
  connected : bool;     (* [isConnected()] *)
}.

Definition is_registered (n : string) (s : McpServer) : bool :=
  existsb (fun r => String.eqb (registered_name r) n) (registeredTools s).

(** The property names that every plain object inherits from
    [Object.prototype]. *)
Definition Object_prototype_names : list string :=
  [ "constructor"; "__defineGetter__"; "__defineSetter__";
    "hasOwnProperty"; "__lookupGetter__"; "__lookupSetter__";
    "isPrototypeOf"; "propertyIsEnumerable"; "toString"; "valueOf";
    "__proto__"; "toLocaleString" ].

Definition inherited (n : string) : bool :=
  existsb (String.eqb n) Object_prototype_names.

(** [this._registeredTools[name]] is truthy: the server keeps its tools
    in a plain object, so the lookup also finds what the object
    inherits. *)
Definition name_taken (n : string) (s : McpServer) : bool :=
  orb (inherited n) (is_registered n s).

(** ** The process the handler runs in *)

Record Process : Type := {
  stderr : list string;
  server : option McpServer;
}.

Definition M (A : Type) : Type := Process -> Completion A * Process.

Definition ret {A} (a : A) : M A := fun p => (Normal a, p).

Definition bind {A B} (m : M A) (k : A -> M B) : M B :=
  fun p =>
    match m p with
    | (Normal a, p') => k a p'
    | (Throw e, p') => (Throw e, p')
    end.

Notation "x <- m ;; k" := (bind m (fun x => k))
  (at level 61, m at next level, right associativity).
Notation "m ;;; k" := (bind m (fun _ => k))
  (at level 61, right associativity).

(** The outcome of a call into a collaborator. *)
Definition await {A} (c : Completion A) : M A := fun p => (c, p).

(** [console.error(line)] *)
Definition console_error (line : string) : M unit :=
  fun p => (Normal tt,
            {| stderr := (stderr p ++ [line])%list; server := server p |}).

(** [new McpServer({ name, version })] *)
Definition new_McpServer (n v : string) : M unit :=
  fun p => (Normal tt,
            {| stderr := stderr p;
               server := Some {| server_name := n; server_version := v;
                                 registeredTools := [];
                                 connected := false |} |}).

Definition already_registered (n : string) : Thrown :=
  ErrorInstance ("Tool " ++ n ++ " is already registered").

(** A method call on a server that was never created; the handler
    creates its server before it uses it, so this is never thrown. *)
Definition no_server : Thrown :=
  ErrorInstance "Cannot read properties of undefined".

(** [McpServer.registerTool] of the MCP SDK.  A name that the tool
    table already answers to is refused with an error (the
    configuration error that the protocol layer raises for a
    duplicate); otherwise the tool is added after the ones registered
    before it. *)
Definition registerTool (n : string) (cfg : ToolConfig)
    (cb : JsValue -> Heap -> Completion Response * Heap) : M unit :=
  fun p =>
    match server p with
    | None => (Throw no_server, p)
    | Some s =>
        if name_taken n s then (Throw (already_registered n), p)
        else
          (Normal tt,
           {| stderr := stderr p;
              server :=
                Some {| server_name := server_name s;
                        server_version := server_version s;
                        registeredTools :=
                          (registeredTools s ++
                           [{| registered_name := n;
                               registered_config := cfg;
                               registered_callback := cb |}])%list;
                        connected := connected s |} |})
    end.

(** [for (const x of xs) body] *)
Fixpoint for_of {A} (xs : list A) (body : A -> M unit) : M unit :=
  match xs with
  | [] => ret tt
  | x :: rest => body x ;;; for_of rest body
  end.

(** ** Collaborators of the handler *)

Definition Settings : Type := JsValue.

Record LoadedSettings : Type := {
  merged : Settings;
}.

Record ToolRegistry : Type := {
  getAllTools : list Tool;
}.

Record Config : Type := {
  createToolRegistry : Completion ToolRegistry;
}.

(** What the handler obtains from outside: the working directory, the
    session id, and the outcome of each call it awaits. *)
Record Env : Type := {
  cwd : string;
  sessionId : string;
  loadSettings : string -> Completion LoadedSettings;
  loadCliConfig :
    Settings -> string -> JsValue -> JsValue -> Completion Config;
  getVersion : Completion (option string);
  transport_start : Completion unit;
}.

(** The minimal argv-like object handed to [loadCliConfig]. *)
Definition argv : JsValue :=
  JObject
    [ ("query", JUndefined); ("model", JUndefined); ("sandbox", JUndefined);
      ("debug", JUndefined); ("prompt", JUndefined);
      ("promptInteractive", JUndefined); ("yolo", JBool false);
      ("approvalMode", JUndefined); ("allowedMcpServerNames", JUndefined);
      ("allowedTools", JUndefined); ("experimentalAcp", JUndefined);
      ("extensions", JUndefined); ("listExtensions", JUndefined);
      ("resume", JUndefined); ("listSessions", JUndefined);
      ("deleteSession", JUndefined); ("includeDirectories", JUndefined);
      ("screenReader", JUndefined); ("useWriteTodos", JUndefined);
      ("outputFormat", JUndefined); ("fakeResponses", JUndefined);
      ("recordResponses", JUndefined) ].

(** The last argument of [loadCliConfig]: [{ cwd }]. *)
Definition cwd_option (directory : string) : JsValue :=
  JObject [("cwd", JString directory)].

(** [server.connect(new StdioServerTransport())]: the server takes the
    transport, which makes [isConnected()] true, and then awaits the
    transport's [start()]. *)
Definition connect (start : Completion unit) : M unit :=
  fun p =>
    match server p with
    | None => (Throw no_server, p)
    | Some s =>
        (match start with
         | Throw e => Throw e
         | Normal _ => Normal tt
         end,
         {| stderr := stderr p;
            server := Some {| server_name := server_name s;
                              server_version := server_version s;
                              registeredTools := registeredTools s;
                              connected := true |} |})
    end.

Definition product_name : string := "Claude Code Gemini CLI".

Definition default_description (tool_name : string) : string :=
  product_name ++ " " ++ tool_name ++ " tool".

Definition registering_line (tool : Tool) : string :=
  "Registering MCP tool: " ++ name tool.

Definition started_line : string :=
  product_name ++ " MCP server started on stdio".

(** The body of the registration loop. *)
Definition register (tool : Tool) : M unit :=
  console_error (registering_line tool) ;;;
  registerTool (name tool)
    {| config_description :=
         string_or (description tool) (default_description (name tool));
       inputSchema := [] |}
    (tool_callback tool).

(** ** [serverCommand.handler] *)

Definition handler (env : Env) : M unit :=
  loadedSettings <- await (loadSettings env (cwd env)) ;;
  let settings := merged loadedSettings in
  config <- await (loadCliConfig env settings (sessionId env) argv (cwd_option (cwd env))) ;;
  toolRegistry <- await (createToolRegistry config) ;;
  version <- await (getVersion env) ;;
  new_McpServer "claude-code-gemini-cli-server" (string_or version "1.0.0") ;;;
  let tools := getAllTools toolRegistry in
  for_of tools register ;;;
  connect (transport_start env) ;;;
  console_error started_line.

(** A process that has not written anything and has no server yet. *)
Definition fresh_process : Process := {| stderr := []; server := None |}.

(** The registry the handler ends up iterating, when it gets that far. *)
Definition registry_of (env : Env) : option (list Tool) :=
  match loadSettings env (cwd env) with
  | Throw _ => None
  | Normal ls =>
      match loadCliConfig env (merged ls) (sessionId env) argv (cwd_option (cwd env)) with
      | Throw _ => None
      | Normal config =>
          match createToolRegistry config with
          | Throw _ => None
          | Normal reg => Some (getAllTools reg)
          end
      end
  end.

(** The entry of the server's tool table that the loop makes for a
    tool. *)
Definition endpoint_of (tool : Tool) : RegisteredTool :=
  {| registered_name := name tool;
     registered_config :=
       {| config_description :=
            string_or (description tool) (default_description (name tool));
          inputSchema := [] |};
     registered_callback := tool_callback tool |}.

Definition endpoints (p : Process) : list RegisteredTool :=
  match server p with
  | Some s => registeredTools s
  | None => []
  end.

(** ** Sample tools and environments *)

Definition invocation_returning (r : Completion ToolResult) : ToolInvocation :=
  {| execute := fun _ _ => r |}.

Definition tool_returning (n : string) (d : option string)
    (r : Completion ToolResult) : Tool :=
  {| name := n; description := d;
     build := fun _ => Normal (invocation_returning r) |}.

Definition tool_failing_build (n : string) (e : Thrown) : Tool :=
  {| name := n; description := None; build := fun _ => Throw e |}.

Definition success (c : JsValue) : ToolResult :=
  {| error := None; llmContent := c |}.

Definition failure (m : string) (c : JsValue) : ToolResult :=
  {| error := Some {| message := m |}; llmContent := c |}.

Definition env_with (tools : list Tool) : Env :=
  {| cwd := "/work";
     sessionId := "session";
     loadSettings := fun _ => Normal {| merged := JObject [] |};
     loadCliConfig := fun _ _ _ _ =>
       Normal {| createToolRegistry := Normal {| getAllTools := tools |} |};
     getVersion := Normal (Some "0.1.0");
     transport_start := Normal tt |}.

Definition read_file : Tool :=
  tool_returning "read_file" (Some "Reads a file")
    (Normal (success (JString "hello"))).

Definition list_dir : Tool :=
  tool_returning "list_dir" None
    (Normal (success (JObject [("a", JNumber (Finite 1 eq_refl))]))).

Definition bad_tool : Tool :=
  tool_returning "bad" (Some EmptyString)
    (Normal (failure "bad input" (JString "ignored"))).

(** ** Serving requests *)

(** The requests of a session, one after the other, on the same heap. *)
Fixpoint serve (requests : list (Tool * JsValue)) (h : Heap)
  : list (Completion Response) * Heap :=
  match requests with
  | [] => ([], h)
  | (tool, args) :: rest =>
      let (r, h') := tool_callback tool args h in
      let (rs, h'') := serve rest h' in
      (r :: rs, h'')
  end.

(** ** Notions used in the statements *)





(** Plain data: no [JOther] anywhere inside. *)
Fixpoint plain (v : JsValue) : bool :=
  match v with
  | JOther _ _ => false
  | JArray l => forallb plain l
  | JObject props => forallb (fun kx => plain (snd kx)) props
  | _ => true
  end.

Fixpoint contains_bigint (v : JsValue) : bool :=
  match v with
  | JBigInt _ => true
  | JArray l => existsb contains_bigint l
  | JObject props => existsb (fun kx => contains_bigint (snd kx)) props
  | _ => false
  end.



(** ** Reading a rendering back *)






(** The values for which [JSON.stringify] has no text of its own
    accord: [undefined] and symbols. *)
Definition without_text (v : JsValue) : bool :=
  match v with
  | JUndefined | JSymbol _ => true
  | _ => false
  end.




(** ** More samples *)

Definition aborted_false : AbortController := {| aborted := false |}.



Definition tool_throwing_error : Tool :=
  tool_failing_build "thrower" (ErrorInstance "boom").


(** A tool whose result text tells whether its signal was aborted when
    [execute] ran. *)
Definition probe : Tool :=
  {| name := "probe"; description := None;
     build := fun _ =>
       Normal {| execute := fun signal h =>
                   Normal (success
                     (match signal_aborted h signal with
                      | Some true => JString "aborted"
                      | Some false => JString "not aborted"
                      | None => JString "no such signal"
                      end)) |} |}.







(** A result with a [BigInt] inside a function call's arguments. *)
Definition bigint_content : JsValue :=
  JObject [("functionCall",
            JObject [("name", JString "f");
                     ("args", JObject [("n", JBigInt 1)])])].

Definition bigint_tool : Tool :=
  tool_returning "bigint" None (Normal (success bigint_content)).


(** ** Failing collaborators and sessions *)

Definition env_version_failing (tools : list Tool) (e : Thrown) : Env :=
  {| cwd := "/work";
     sessionId := "session";
     loadSettings := fun _ => Normal {| merged := JObject [] |};
     loadCliConfig := fun _ _ _ _ =>
       Normal {| createToolRegistry := Normal {| getAllTools := tools |} |};
     getVersion := Throw e;
     transport_start := Normal tt |}.

Definition env_connect_failing (tools : list Tool) (e : Thrown) : Env :=
  {| cwd := "/work";
     sessionId := "session";
     loadSettings := fun _ => Normal {| merged := JObject [] |};
     loadCliConfig := fun _ _ _ _ =>
       Normal {| createToolRegistry := Normal {| getAllTools := tools |} |};
     getVersion := Normal None;
     transport_start := Throw e |}.


(** A tool that answers with the arguments [build] was given. *)
Definition echo : Tool :=
  {| name := "echo"; description := None;
     build := fun args => Normal (invocation_returning (Normal (success args)))
  |}.

(** * Properties *)

(** ** The registration loop *)

Lemma is_registered_app n s r :
  is_registered n
    {| server_name := server_name s; server_version := server_version s;
       registeredTools := (registeredTools s ++ [r])%list;
       connected := connected s |}
  = orb (is_registered n s) (String.eqb (registered_name r) n).
Proof.
  unfold is_registered; simpl.
  rewrite existsb_app; simpl. now rewrite orb_false_r.
Qed.

Lemma name_taken_app n s r :
  name_taken n
    {| server_name := server_name s; server_version := server_version s;
       registeredTools := (registeredTools s ++ [r])%list;
       connected := connected s |}
  = orb (name_taken n s) (String.eqb (registered_name r) n).
Proof.
  unfold name_taken. rewrite is_registered_app. now rewrite orb_assoc.
Qed.

(** One turn of the loop, on a process that has a server. *)
Lemma register_step tool p s :
  server p = Some s ->
  register tool p =
    if name_taken (name tool) s
    then (Throw (already_registered (name tool)),
          {| stderr := (stderr p ++ [registering_line tool])%list;
             server := Some s |})
    else (Normal tt,
          {| stderr := (stderr p ++ [registering_line tool])%list;
             server :=
               Some {| server_name := server_name s;
                       server_version := server_version s;
                       registeredTools :=
                         (registeredTools s ++ [endpoint_of tool])%list;
                       connected := connected s |} |}).
Proof.
  intros Hs.
  unfold register, bind, console_error, registerTool; simpl.
  rewrite Hs. now destruct (name_taken (name tool) s).
Qed.

(** What a completed loop has done. *)
Lemma for_of_register_inv tools :
  forall p s p',
    server p = Some s ->
    for_of tools register p = (Normal tt, p') ->
    stderr p' = (stderr p ++ map registering_line tools)%list
    /\ server p' =
         Some {| server_name := server_name s;
                 server_version := server_version s;
                 registeredTools :=
                   (registeredTools s ++ map endpoint_of tools)%list;
                 connected := connected s |}
    /\ NoDup (map name tools)
    /\ (forall T, In T tools -> name_taken (name T) s = false).
Proof.
  induction tools as [|tool rest IH]; intros p s p' Hs Hrun.
  - simpl in Hrun. injection Hrun as <-. simpl.
    rewrite !app_nil_r. repeat split.
    + rewrite Hs. now destruct s.
    + constructor.
    + intros T [].
  - simpl in Hrun. unfold bind in Hrun.
    rewrite (register_step tool p s Hs) in Hrun.
    destruct (name_taken (name tool) s) eqn:Hreg; [discriminate|].
    eapply IH in Hrun; [|reflexivity].
    destruct Hrun as (Herr & Hsrv & Hnd & Hfresh). simpl in *.
    repeat split.
    + rewrite Herr, <- app_assoc. reflexivity.
    + rewrite Hsrv, <- app_assoc. reflexivity.
    + constructor; [|exact Hnd].
      intros Hin. apply in_map_iff in Hin as (T & HT & HinT).
      specialize (Hfresh T HinT).
      rewrite name_taken_app in Hfresh.
      apply orb_false_elim in Hfresh as [_ Hne].
      simpl in Hne. rewrite HT, String.eqb_refl in Hne. discriminate.
    + intros T [<-|HinT]; [exact Hreg|].
      specialize (Hfresh T HinT).
      rewrite name_taken_app in Hfresh.
      now apply orb_false_elim in Hfresh as [? _].
Qed.

(** The loop completes when the names are distinct and free. *)
Lemma for_of_register_ok tools :
  forall p s,
    server p = Some s ->
    NoDup (map name tools) ->
    (forall T, In T tools -> name_taken (name T) s = false) ->
    for_of tools register p =
      (Normal tt,
       {| stderr := (stderr p ++ map registering_line tools)%list;
          server :=
            Some {| server_name := server_name s;
                    server_version := server_version s;
                    registeredTools :=
                      (registeredTools s ++ map endpoint_of tools)%list;
                    connected := connected s |} |}).
Proof.
  induction tools as [|tool rest IH]; intros p s Hs Hnd Hfresh.
  - simpl. unfold ret. rewrite !app_nil_r.
    destruct p as [err srv]; simpl in *. subst srv. now destruct s.
  - simpl. unfold bind.
    rewrite (register_step tool p s Hs).
    rewrite (Hfresh tool (or_introl eq_refl)).
    inversion Hnd as [|? ? Hnotin Hnd']; subst.
    erewrite IH; [| reflexivity | exact Hnd' |].
    + simpl. rewrite <- !app_assoc. reflexivity.
    + intros T HinT. rewrite name_taken_app.
      rewrite (Hfresh T (or_intror HinT)). simpl.
      apply String.eqb_neq. intros Heq. apply Hnotin.
      rewrite Heq. now apply in_map.
Qed.

Lemma name_taken_new n v name0 :
  name_taken n
    {| server_name := name0; server_version := v;
       registeredTools := []; connected := false |}
  = inherited n.
Proof.
  unfold name_taken, is_registered. simpl. now rewrite orb_false_r.
Qed.

(** ** The handler as a whole *)

(** A handler that completed went through every step. *)
Lemma handler_inv env p0 p :
  handler env p0 = (Normal tt, p) ->
  exists tools version,
    registry_of env = Some tools
    /\ getVersion env = Normal version
    /\ transport_start env = Normal tt
    /\ NoDup (map name tools)
    /\ stderr p =
         (stderr p0 ++ map registering_line tools ++ [started_line])%list
    /\ server p =
         Some {| server_name := "claude-code-gemini-cli-server";
                 server_version := string_or version "1.0.0";
                 registeredTools := map endpoint_of tools;
                 connected := true |}
    /\ (forall T, In T tools -> inherited (name T) = false).
Proof.
  unfold handler, registry_of, bind, await. intros H.
  destruct (loadSettings env (cwd env)) as [ls|]; [|discriminate].
  destruct (loadCliConfig env (merged ls) (sessionId env) argv
              (cwd_option (cwd env)))
    as [config|]; [|discriminate].
  destruct (createToolRegistry config) as [reg|]; [|discriminate].
  destruct (getVersion env) as [version|]; [|discriminate].
  simpl in H.
  destruct (for_of (getAllTools reg) register _) as [[[]|] p1] eqn:Hloop;
    [|discriminate].
  eapply for_of_register_inv in Hloop; [|reflexivity].
  destruct Hloop as (Herr & Hsrv & Hnd & Hfree). simpl in *.
  unfold connect in H. rewrite Hsrv in H.
  destruct (transport_start env) as [[]|]; [|discriminate].
  unfold console_error in H. simpl in H. injection H as <-.
  exists (getAllTools reg), version. simpl.
  repeat split; try assumption.
  - rewrite Herr, <- app_assoc. reflexivity.
  - intros T HT. specialize (Hfree T HT).
    now rewrite name_taken_new in Hfree.
Qed.

(** The handler completes when its collaborators do and the registry's
    names are distinct and none of them is inherited by the server's
    tool table. *)
Lemma handler_ok env p0 tools version :
  registry_of env = Some tools ->
  getVersion env = Normal version ->
  transport_start env = Normal tt ->
  NoDup (map name tools) ->
  (forall T, In T tools -> inherited (name T) = false) ->
  handler env p0 =
    (Normal tt,
     {| stderr :=
          (stderr p0 ++ map registering_line tools ++ [started_line])%list;
        server :=
          Some {| server_name := "claude-code-gemini-cli-server";
                  server_version := string_or version "1.0.0";
                  registeredTools := map endpoint_of tools;
                  connected := true |} |}).
Proof.
  unfold handler, registry_of, bind, await. intros Hreg Hv Ht Hnd Hfree.
  destruct (loadSettings env (cwd env)) as [ls|]; [|discriminate].
  destruct (loadCliConfig env (merged ls) (sessionId env) argv
              (cwd_option (cwd env)))
    as [config|]; [|discriminate].
  destruct (createToolRegistry config) as [reg|]; [|discriminate].
  injection Hreg as Hreg. rewrite Hv, Hreg. simpl.
  erewrite for_of_register_ok; [| reflexivity | exact Hnd |].
  - unfold connect, console_error. simpl. rewrite Ht. simpl.
    rewrite <- app_assoc. reflexivity.
  - intros T HT. rewrite name_taken_new. now apply Hfree.
Qed.

(** C1: after a completed startup the server's tool table is the
    registry's tools turned into endpoints, in the registry's order: the
    endpoint names are the tool names in that order, each tool's name
    occurs exactly once among them, and every endpoint is named after a
    tool of the registry. *)
Theorem handler_registers_one_endpoint_per_tool env p0 p :
  handler env p0 = (Normal tt, p) ->
  exists tools,
    registry_of env = Some tools
    /\ endpoints p = map endpoint_of tools
    /\ map registered_name (endpoints p) = map name tools
    /\ (forall T, In T tools ->
          count_occ string_dec (map registered_name (endpoints p)) (name T)
          = 1%nat)
    /\ (forall ep, In ep (endpoints p) ->
          exists T, In T tools /\ registered_name ep = name T).
Proof.
  intros H. apply handler_inv in H
    as (tools & version & Hreg & _ & _ & Hnd & _ & Hsrv & _).
  exists tools. unfold endpoints. rewrite Hsrv. simpl.
  assert (Hnames : map registered_name (map endpoint_of tools)
                   = map name tools).
  { rewrite map_map. reflexivity. }
  repeat split; try assumption.
  - intros T HT. rewrite Hnames.
    apply NoDup_count_occ'; [exact Hnd | now apply in_map].
  - intros ep Hep. apply in_map_iff in Hep as (T & <- & HT).
    now exists T.
Qed.

Lemma handler_registers_one_endpoint_per_tool_witness :
  handler (env_with [read_file; list_dir]) fresh_process
  = (Normal tt, snd (handler (env_with [read_file; list_dir]) fresh_process))
  /\ exists tools,
       registry_of (env_with [read_file; list_dir]) = Some tools
       /\ endpoints
            (snd (handler (env_with [read_file; list_dir]) fresh_process))
          = map endpoint_of tools
       /\ map registered_name
            (endpoints
               (snd (handler (env_with [read_file; list_dir]) fresh_process)))
          = map name tools
       /\ (forall T, In T tools ->
             count_occ string_dec
               (map registered_name
                  (endpoints
                     (snd (handler (env_with [read_file; list_dir])
                             fresh_process))))
               (name T) = 1%nat)
       /\ (forall ep,
             In ep (endpoints
                      (snd (handler (env_with [read_file; list_dir])
                              fresh_process))) ->
             exists T, In T tools /\ registered_name ep = name T).
Proof.
  split; [reflexivity|].
  apply (handler_registers_one_endpoint_per_tool
           (env_with [read_file; list_dir]) fresh_process).
  reflexivity.
Defined.

(** With distinct names in the registry, none of them inherited by the
    server's tool table, and collaborators that do not fail, startup
    does complete, so the statement above is not empty. *)
Lemma handler_completes env p0 tools version :
  registry_of env = Some tools ->
  getVersion env = Normal version ->
  transport_start env = Normal tt ->
  NoDup (map name tools) ->
  (forall T, In T tools -> inherited (name T) = false) ->
  exists p, handler env p0 = (Normal tt, p)
            /\ endpoints p = map endpoint_of tools.
Proof.
  intros Hreg Hv Ht Hnd Hfree. eexists. split.
  - now apply (handler_ok env p0 tools version).
  - reflexivity.
Qed.

(** A registry with a repeated name stops startup at the second
    registration. *)
Example handler_duplicate_name :
  fst (handler (env_with [read_file; read_file]) fresh_process)
  = Throw (already_registered "read_file").
Proof. reflexivity. Qed.

(** C6: the endpoint registered for a tool of the registry carries the
    tool's description when there is one and it is not empty, and
    otherwise the default text made of the product name and the tool's
    name. *)
Theorem endpoint_description env p0 p tools tool :
  handler env p0 = (Normal tt, p) ->
  registry_of env = Some tools ->
  In tool tools ->
  exists ep,
    In ep (endpoints p)
    /\ registered_name ep = name tool
    /\ (forall d, description tool = Some d -> d <> EmptyString ->
          config_description (registered_config ep) = d)
    /\ (description tool = None \/ description tool = Some EmptyString ->
          config_description (registered_config ep)
          = "Claude Code Gemini CLI " ++ name tool ++ " tool").
Proof.
  intros H Hreg Hin.
  apply handler_inv in H
    as (tools' & version & Hreg' & _ & _ & _ & _ & Hsrv & _).
  rewrite Hreg in Hreg'. injection Hreg' as <-.
  exists (endpoint_of tool). unfold endpoints. rewrite Hsrv. simpl.
  split; [now apply in_map|]. split; [reflexivity|]. simpl. split.
  - intros d Hd Hne. rewrite Hd. simpl.
    apply String.eqb_neq in Hne. now rewrite Hne.
  - intros [Hd|Hd]; rewrite Hd; reflexivity.
Qed.

Lemma endpoint_description_witness :
  (handler (env_with [read_file; list_dir]) fresh_process
   = (Normal tt, snd (handler (env_with [read_file; list_dir]) fresh_process))
   /\ registry_of (env_with [read_file; list_dir])
      = Some [read_file; list_dir]
   /\ In list_dir [read_file; list_dir])
  /\ exists ep,
       In ep (endpoints
                (snd (handler (env_with [read_file; list_dir])
                        fresh_process)))
       /\ registered_name ep = name list_dir
       /\ (forall d, description list_dir = Some d -> d <> EmptyString ->
             config_description (registered_config ep) = d)
       /\ (description list_dir = None
           \/ description list_dir = Some EmptyString ->
             config_description (registered_config ep)
             = "Claude Code Gemini CLI " ++ name list_dir ++ " tool").
Proof.
  split.
  - split; [reflexivity|]. split; [reflexivity|]. simpl. auto.
  - apply (endpoint_description (env_with [read_file; list_dir])
             fresh_process _ [read_file; list_dir] list_dir).
    + reflexivity.
    + reflexivity.
    + simpl. auto.
Defined.

Example description_kept :
  map (fun ep => config_description (registered_config ep))
    (endpoints (snd (handler (env_with [read_file; list_dir; bad_tool])
                       fresh_process)))
  = ["Reads a file";
     "Claude Code Gemini CLI list_dir tool";
     "Claude Code Gemini CLI bad tool"].
Proof. reflexivity. Qed.

(** C8, as the code has it: with an empty registry and collaborators
    that do not fail, startup completes with no endpoint registered; it
    writes no registration line, and the one line it writes to the error
    stream is the closing "server started" line. *)
Theorem empty_registry_startup env p0 version :
  registry_of env = Some [] ->
  getVersion env = Normal version ->
  transport_start env = Normal tt ->
  exists p,
    handler env p0 = (Normal tt, p)
    /\ endpoints p = []
    /\ stderr p
       = (stderr p0
          ++ ["Claude Code Gemini CLI MCP server started on stdio"])%list
    /\ (forall tool,
          registering_line tool
          <> "Claude Code Gemini CLI MCP server started on stdio").
Proof.
  intros Hreg Hv Ht.
  eexists. split.
  - apply (handler_ok env p0 [] version Hreg Hv Ht); [constructor|].
    intros T [].
  - simpl. repeat split. intros tool. unfold registering_line. simpl.
    discriminate.
Qed.

Lemma empty_registry_startup_witness :
  (registry_of (env_with []) = Some []
   /\ getVersion (env_with []) = Normal (Some "0.1.0")
   /\ transport_start (env_with []) = Normal tt)
  /\ exists p,
       handler (env_with []) fresh_process = (Normal tt, p)
       /\ endpoints p = []
       /\ stderr p
          = (stderr fresh_process
             ++ ["Claude Code Gemini CLI MCP server started on stdio"])%list
       /\ (forall tool,
             registering_line tool
             <> "Claude Code Gemini CLI MCP server started on stdio").
Proof.
  split.
  - repeat split.
  - apply (empty_registry_startup (env_with []) fresh_process
             (Some "0.1.0")); reflexivity.
Defined.

(** C8 as stated fails: on an empty registry the handler still writes
    one line to the error stream. *)
Lemma empty_registry_writes_a_line :
  registry_of (env_with []) = Some []
  /\ fst (handler (env_with []) fresh_process) = Normal tt
  /\ stderr (snd (handler (env_with []) fresh_process))
     = ["Claude Code Gemini CLI MCP server started on stdio"]
  /\ stderr (snd (handler (env_with []) fresh_process))
     <> stderr fresh_process.
Proof.
  repeat split. simpl. discriminate.
Qed.

(** ** The callback *)

Lemma tool_callback_build_throws tool args h e :
  build tool (js_or args (JObject [])) = Throw e ->
  tool_callback tool args h = (catch_block e, h).
Proof.
  intros Hb. unfold tool_callback, try_block. now rewrite Hb.
Qed.

(** The shape of a call whose [build] returned: the invocation runs on
    the signal of a controller made for it. *)
Lemma tool_callback_built tool args h inv :
  build tool (js_or args (JObject [])) = Normal inv ->
  tool_callback tool args h =
    (match execute inv (List.length h) (h ++ [aborted_false])%list with
     | Throw e => catch_block e
     | Normal result =>
         match respond result with
         | Throw e => catch_block e
         | Normal r => Normal r
         end
     end,
     (h ++ [aborted_false])%list).
Proof.
  intros Hb. unfold tool_callback, try_block, new_AbortController.
  rewrite Hb. fold aborted_false.
  destruct (execute inv _ _) as [result|e]; [|reflexivity].
  now destruct (respond result).
Qed.

(** The callback throws only out of its [catch] block. *)
Lemma tool_callback_throws tool args h e' :
  fst (tool_callback tool args h) = Throw e' ->
  exists e,
    fst (try_block tool args h) = Throw e /\ catch_block e = Throw e'.
Proof.
  unfold tool_callback.
  destruct (try_block tool args h) as [[r|e] h']; simpl; [discriminate|].
  intros H. now exists e.
Qed.

Lemma respond_content result r :
  respond result = Normal r ->
  exists t, content r = [{| type := "text"; text := t |}].
Proof.
  unfold respond.
  destruct (error result) as [err|].
  - intros [= <-]. eexists. reflexivity.
  - destruct (textContent (llmContent result)) as [t|]; [|discriminate].
    intros [= <-]. now exists t.
Qed.

Lemma catch_block_content e r :
  catch_block e = Normal r ->
  exists m, r = {| content := [{| type := "text";
                                  text := Some ("Internal Error: " ++ m) |}];
                   isError := Some true |}.
Proof.
  unfold catch_block.
  destruct (caught_message e) as [message|]; [|discriminate].
  destruct (ToString message) as [m|]; [|discriminate].
  intros [= <-]. now exists m.
Qed.

Lemma tool_callback_content tool args h r :
  fst (tool_callback tool args h) = Normal r ->
  exists t, content r = [{| type := "text"; text := t |}].
Proof.
  destruct (build tool (js_or args (JObject []))) as [inv|e] eqn:Hb.
  - rewrite (tool_callback_built _ _ _ _ Hb). simpl.
    destruct (execute inv _ _) as [result|e].
    + destruct (respond result) as [r'|e] eqn:Hr.
      * intros [= <-]. now apply (respond_content result).
      * intros H. apply catch_block_content in H as (m & ->).
        eexists. reflexivity.
    + intros H. apply catch_block_content in H as (m & ->).
      eexists. reflexivity.
  - rewrite (tool_callback_build_throws _ _ _ _ Hb). simpl.
    intros H. apply catch_block_content in H as (m & ->).
    eexists. reflexivity.
Qed.

(** C9: every response that the callback of a registered endpoint
    returns has as content one item of type "text".  The callback
    returns a response unless its [catch] block itself throws. *)
Theorem registered_callback_returns_one_text_item env p0 p ep args h :
  handler env p0 = (Normal tt, p) ->
  In ep (endpoints p) ->
  (forall r,
      fst (registered_callback ep args h) = Normal r ->
      exists t,
        content r = [{| type := "text"; text := t |}]
        /\ List.length (content r) = 1%nat)
  /\ ((exists r, fst (registered_callback ep args h) = Normal r)
      \/ (exists tool e e',
            registered_callback ep = tool_callback tool
            /\ fst (try_block tool args h) = Throw e
            /\ catch_block e = Throw e'
            /\ fst (registered_callback ep args h) = Throw e')).
Proof.
  intros H Hep.
  apply handler_inv in H
    as (tools & version & _ & _ & _ & _ & _ & Hsrv & _).
  unfold endpoints in Hep. rewrite Hsrv in Hep. simpl in Hep.
  apply in_map_iff in Hep as (tool & <- & _). simpl. split.
  - intros r Hr.
    destruct (tool_callback_content tool args h r Hr) as (t & Hc).
    exists t. rewrite Hc. auto.
  - destruct (fst (tool_callback tool args h)) as [r|e'] eqn:Hr.
    + left. now exists r.
    + right. destruct (tool_callback_throws tool args h e' Hr) as (e & He).
      exists tool, e, e'. tauto.
Qed.

Lemma registered_callback_returns_one_text_item_witness :
  (handler (env_with [read_file; bad_tool]) fresh_process
   = (Normal tt, snd (handler (env_with [read_file; bad_tool]) fresh_process))
   /\ In (endpoint_of bad_tool)
        (endpoints (snd (handler (env_with [read_file; bad_tool])
                           fresh_process))))
  /\ exists t,
       content (error_response {| message := "bad input" |})
       = [{| type := "text"; text := t |}]
       /\ List.length (content (error_response {| message := "bad input" |}))
          = 1%nat.
Proof.
  split.
  - split; [reflexivity|]. simpl. auto.
  - apply (registered_callback_returns_one_text_item
             (env_with [read_file; bad_tool]) fresh_process
             (snd (handler (env_with [read_file; bad_tool]) fresh_process))
             (endpoint_of bad_tool) JUndefined []).
    + reflexivity.
    + simpl. auto.
    + reflexivity.
Defined.

(** C2: when the invocation built for the call returns a result that
    carries an error, the endpoint's callback answers with [isError]
    true and the single text item "Error: " followed by the error's
    message. *)
Theorem error_result_response tool args h inv result err :
  build tool (js_or args (JObject [])) = Normal inv ->
  execute inv (List.length h) (h ++ [{| aborted := false |}])%list
  = Normal result ->
  error result = Some err ->
  fst (registered_callback (endpoint_of tool) args h)
  = Normal {| content := [{| type := "text";
                             text := Some ("Error: " ++ message err) |}];
              isError := Some true |}.
Proof.
  intros Hb He Herr. simpl.
  rewrite (tool_callback_built _ _ _ _ Hb). unfold aborted_false. simpl.
  rewrite He. unfold respond. rewrite Herr. reflexivity.
Qed.

Lemma error_result_response_witness :
  fst (registered_callback (endpoint_of bad_tool)
         (JObject [("path", JString "x")]) [])
  = Normal {| content := [{| type := "text";
                             text := Some "Error: bad input" |}];
              isError := Some true |}.
Proof.
  apply (error_result_response bad_tool (JObject [("path", JString "x")]) []
           (invocation_returning
              (Normal (failure "bad input" (JString "ignored"))))
           (failure "bad input" (JString "ignored"))
           {| message := "bad input" |});
    reflexivity.
Defined.

(** C4: when the invocation returns a result without error whose
    [llmContent] is a string, the callback answers with that string as
    the text of its single item, and the response has no [isError]. *)
Theorem string_content_response tool args h inv result s :
  build tool (js_or args (JObject [])) = Normal inv ->
  execute inv (List.length h) (h ++ [{| aborted := false |}])%list
  = Normal result ->
  error result = None ->
  llmContent result = JString s ->
  fst (registered_callback (endpoint_of tool) args h)
  = Normal {| content := [{| type := "text"; text := Some s |}];
              isError := None |}.
Proof.
  intros Hb He Herr Hc. simpl.
  rewrite (tool_callback_built _ _ _ _ Hb). unfold aborted_false. simpl.
  rewrite He. unfold respond. rewrite Herr, Hc. reflexivity.
Qed.

Lemma string_content_response_witness :
  fst (registered_callback (endpoint_of read_file) JUndefined [])
  = Normal {| content := [{| type := "text"; text := Some "hello" |}];
              isError := None |}.
Proof.
  apply (string_content_response read_file JUndefined []
           (invocation_returning (Normal (success (JString "hello"))))
           (success (JString "hello")) "hello");
    reflexivity.
Defined.

(** C10: a result that carries an error is answered with the error
    response whatever its [llmContent] is; the response is the same for
    every content, also for one that could not be serialised. *)
Theorem error_takes_precedence tool args h inv result err :
  build tool (js_or args (JObject [])) = Normal inv ->
  execute inv (List.length h) (h ++ [{| aborted := false |}])%list
  = Normal result ->
  error result = Some err ->
  fst (registered_callback (endpoint_of tool) args h)
  = Normal {| content := [{| type := "text";
                             text := Some ("Error: " ++ message err) |}];
              isError := Some true |}
  /\ (forall c,
        respond {| error := Some err; llmContent := c |}
        = respond result).
Proof.
  intros Hb He Herr. split.
  - simpl. rewrite (tool_callback_built _ _ _ _ Hb).
    unfold aborted_false. simpl.
    rewrite He. unfold respond. rewrite Herr. reflexivity.
  - intros c. unfold respond. simpl. now rewrite Herr.
Qed.

Lemma error_takes_precedence_witness :
  fst (registered_callback (endpoint_of bad_tool) JNull [aborted_false])
  = Normal {| content := [{| type := "text";
                             text := Some "Error: bad input" |}];
              isError := Some true |}
  /\ (forall c,
        respond {| error := Some {| message := "bad input" |};
                   llmContent := c |}
        = respond (failure "bad input" (JString "ignored"))).
Proof.
  apply (error_takes_precedence bad_tool JNull [aborted_false]
           (invocation_returning
              (Normal (failure "bad input" (JString "ignored"))))
           (failure "bad input" (JString "ignored"))
           {| message := "bad input" |});
    reflexivity.
Defined.

Example error_with_unserialisable_content :
  fst (tool_callback
         (tool_returning "t" None
            (Normal (failure "bad input" (JBigInt 1)))) JUndefined [])
  = Normal (error_response {| message := "bad input" |}).
Proof. reflexivity. Qed.



Example thrown_error_from_build :
  fst (tool_callback tool_throwing_error (JObject []) [])
  = Normal {| content := [text_item (Some "Internal Error: boom")];
              isError := Some true |}.
Proof. reflexivity. Qed.

Example thrown_string :
  fst (tool_callback (tool_failing_build "t" (NonError (JString "boom")))
         (JObject []) [])
  = Normal {| content := [text_item (Some "Internal Error: boom")];
              isError := Some true |}.
Proof. reflexivity. Qed.

Example thrown_symbol :
  fst (tool_callback (tool_failing_build "t" (NonError (JSymbol "boom")))
         (JObject []) [])
  = Normal {| content := [text_item (Some "Internal Error: Symbol(boom)")];
              isError := Some true |}.
Proof. reflexivity. Qed.

Example thrown_error_with_symbol_message :
  fst (tool_callback
         (tool_failing_build "t" (ErrorWithMessage (JSymbol "boom")))
         (JObject []) [])
  = Throw cannot_convert_symbol.
Proof. reflexivity. Qed.


(** ** Cancellation signals *)

Lemma signal_aborted_app h ext s :
  (s < List.length h)%nat ->
  signal_aborted (h ++ ext)%list s = signal_aborted h s.
Proof.
  intros Hs. unfold signal_aborted. now rewrite nth_error_app1.
Qed.

Lemma signal_aborted_new h ext :
  signal_aborted (h ++ aborted_false :: ext)%list (List.length h)
  = Some false.
Proof.
  unfold signal_aborted.
  rewrite nth_error_app2, Nat.sub_diag by lia. reflexivity.
Qed.

(** A call leaves the heap as it is or adds one controller to it, not
    aborted. *)
Lemma tool_callback_heap tool args h :
  snd (tool_callback tool args h) = h
  \/ snd (tool_callback tool args h) = (h ++ [aborted_false])%list.
Proof.
  destruct (build tool (js_or args (JObject []))) as [inv|e] eqn:Hb.
  - right. now rewrite (tool_callback_built _ _ _ _ Hb).
  - left. now rewrite (tool_callback_build_throws _ _ _ _ Hb).
Qed.

(** A session only ever adds controllers that are not aborted. *)
Lemma serve_heap requests :
  forall h, exists n,
    snd (serve requests h) = (h ++ repeat aborted_false n)%list.
Proof.
  induction requests as [|[tool args] rest IH]; intros h.
  - exists 0%nat. simpl. now rewrite app_nil_r.
  - simpl.
    destruct (tool_callback tool args h) as [r h'] eqn:Hc.
    destruct (serve rest h') as [rs h''] eqn:Hs. simpl.
    destruct (IH h') as (n & Hn). rewrite Hs in Hn. simpl in Hn.
    pose proof (tool_callback_heap tool args h) as Hh.
    rewrite Hc in Hh. simpl in Hh. destruct Hh as [->| ->].
    + now exists n.
    + exists (S n). rewrite Hn, <- app_assoc. reflexivity.
Qed.

(** A signal can be triggered, through its controller; the callback
    never does so. *)
Example abort_triggers :
  signal_aborted (abort [aborted_false; aborted_false] 1) 1 = Some true.
Proof. reflexivity. Qed.

(** C7: when a call gets as far as executing its invocation, the signal
    it passes belongs to a controller that did not exist before the
    call, is not aborted while the invocation runs, is not aborted when
    the call returns, and stays so through every later call of the
    session; the calls abort no earlier signal either.  The callback
    takes the arguments only, so a caller has no way to cancel. *)
Theorem signal_fresh_and_never_aborted tool args h inv later :
  build tool (js_or args (JObject [])) = Normal inv ->
  signal_aborted h (List.length h) = None
  /\ tool_callback tool args h
     = (match execute inv (List.length h)
                (h ++ [{| aborted := false |}])%list with
        | Throw e => catch_block e
        | Normal result =>
            match respond result with
            | Throw e => catch_block e
            | Normal r => Normal r
            end
        end,
        (h ++ [{| aborted := false |}])%list)
  /\ signal_aborted (h ++ [{| aborted := false |}])%list (List.length h)
     = Some false
  /\ signal_aborted (snd (tool_callback tool args h)) (List.length h)
     = Some false
  /\ signal_aborted (snd (serve later (snd (tool_callback tool args h))))
       (List.length h)
     = Some false
  /\ (forall s b,
        signal_aborted h s = Some b ->
        signal_aborted (snd (serve later (snd (tool_callback tool args h)))) s
        = Some b).
Proof.
  intros Hb. fold aborted_false.
  pose proof (tool_callback_built tool args h inv Hb) as Hc.
  destruct (serve_heap later (h ++ [aborted_false])%list) as (n & Hn).
  rewrite Hc. simpl. rewrite Hn.
  repeat split.
  - unfold signal_aborted.
    assert (nth_error h (List.length h) = None) as ->
        by (apply nth_error_None; lia).
    reflexivity.
  - apply signal_aborted_new.
  - apply signal_aborted_new.
  - rewrite <- app_assoc. simpl. apply signal_aborted_new.
  - intros s b Hs.
    assert (s < List.length h)%nat.
    { unfold signal_aborted in Hs.
      destruct (nth_error h s) eqn:E; [|discriminate].
      apply nth_error_Some. congruence. }
    rewrite <- app_assoc, signal_aborted_app; assumption.
Qed.

Lemma signal_fresh_and_never_aborted_witness :
  signal_aborted [aborted_false] 1 = None
  /\ fst (tool_callback probe JUndefined [aborted_false])
     = Normal {| content := [text_item (Some "not aborted")];
                 isError := None |}
  /\ signal_aborted
       (snd (serve [(read_file, JNull); (probe, JNull)]
               (snd (tool_callback probe JUndefined [aborted_false])))) 1
     = Some false.
Proof.
  pose proof (signal_fresh_and_never_aborted probe JUndefined [aborted_false]
                {| execute := fun signal h =>
                     Normal (success
                       (match signal_aborted h signal with
                        | Some true => JString "aborted"
                        | Some false => JString "not aborted"
                        | None => JString "no such signal"
                        end)) |}
                [(read_file, JNull); (probe, JNull)] eq_refl)
    as (Hfresh & Hcall & _ & _ & Hlater & _).
  split; [exact Hfresh|]. split; [|exact Hlater].
  rewrite Hcall. reflexivity.
Defined.

(** The signals of the calls of a session are pairwise distinct: each
    is the address of the controller its call adds. *)
Example session_signals :
  snd (serve [(probe, JNull); (tool_throwing_error, JNull); (probe, JNull)]
         [])
  = [aborted_false; aborted_false].
Proof. reflexivity. Qed.

(** ** [JSON.stringify] on structured values *)

(** Induction on values that reaches into arrays and objects. *)
Lemma JsValue_nested_ind (P : JsValue -> Prop) :
  P JUndefined ->
  P JNull ->
  (forall b, P (JBool b)) ->
  (forall n, P (JNumber n)) ->
  (forall z, P (JBigInt z)) ->
  (forall s, P (JString s)) ->
  (forall d, P (JSymbol d)) ->
  (forall l, Forall P l -> P (JArray l)) ->
  (forall props, Forall (fun kx => P (snd kx)) props -> P (JObject props)) ->
  (forall c j, P (JOther c j)) ->
  forall v, P v.
Proof.
  intros Hu Hn Hb Hnum Hbig Hs Hsym Harr Hobj Hother.
  fix IH 1. intros [| |b|n|z|s|d|l|props|c j].
  - exact Hu.
  - exact Hn.
  - apply Hb.
  - apply Hnum.
  - apply Hbig.
  - apply Hs.
  - apply Hsym.
  - apply Harr. induction l as [|x rest IHl].
    + constructor.
    + constructor; [apply IH | exact IHl].
  - apply Hobj. induction props as [|[k x] rest IHl].
    + constructor.
    + constructor; [apply IH | exact IHl].
  - apply Hother.
Qed.


(** [collect] throws exactly when some element does, provided every
    throw is the same value. *)
Lemma collect_cases {A B} (f : A -> Completion B) (c : A -> bool) e0 l :
  Forall (fun x => if c x then f x = Throw e0
                   else exists b, f x = Normal b) l ->
  if existsb c l then collect f l = Throw e0
  else exists bs, collect f l = Normal bs.
Proof.
  induction 1 as [|x rest Hx _ IH]; simpl.
  - now exists [].
  - destruct (c x); simpl.
    + now rewrite Hx.
    + destruct Hx as (b & ->).
      destruct (existsb c rest).
      * now rewrite IH.
      * destruct IH as (bs & ->). now exists (b :: bs).
Qed.

(** What [collect] returns holds the results element by element. *)
Lemma collect_inv {A B} (f : A -> Completion B) l :
  forall bs,
    collect f l = Normal bs ->
    Forall2 (fun x b => f x = Normal b) l bs.
Proof.
  induction l as [|x rest IH]; simpl; intros bs H.
  - injection H as <-. constructor.
  - destruct (f x) as [b|] eqn:Hx; [|discriminate].
    destruct (collect f rest) as [bs'|]; [|discriminate].
    injection H as <-. constructor; auto.
Qed.



(** On plain data the serialiser throws exactly when there is a
    [BigInt] inside, and then it throws the [TypeError] for [BigInt];
    otherwise it has a text, except for [undefined] and symbols. *)
Lemma serialize_cases v :
  plain v = true ->
  if contains_bigint v
  then SerializeJSONProperty v = Throw cannot_serialize_bigint
  else exists o, SerializeJSONProperty v = Normal o
                 /\ (without_text v = false -> exists s, o = Some s).
Proof.
  induction v as [| |b|n|z|s|d|l IH|props IH|c j] using JsValue_nested_ind;
    simpl; intros Hp;
    try (eexists; split; [reflexivity|]; intros; eauto; fail).
  - eexists; split; [reflexivity|]. discriminate.
  - destruct b; eexists; split; try reflexivity; eauto.
  - reflexivity.
  - eexists; split; [reflexivity|]. discriminate.
  - assert (Hall : Forall
              (fun x => if contains_bigint x
                        then SerializeJSONProperty x
                             = Throw cannot_serialize_bigint
                        else exists b, SerializeJSONProperty x = Normal b) l).
    { rewrite forallb_forall in Hp. rewrite Forall_forall in *.
      intros x Hx. specialize (IH x Hx (Hp x Hx)).
      destruct (contains_bigint x); [exact IH|].
      destruct IH as (o & Ho & _). now exists o. }
    apply collect_cases in Hall.
    destruct (existsb contains_bigint l).
    + now rewrite Hall.
    + destruct Hall as (bs & ->). eexists; split; [reflexivity|]. eauto.
  - match goal with
    | |- context [collect ?F props] => set (F0 := F)
    end.
    assert (Hall : Forall
              (fun kx : string * JsValue =>
                 if contains_bigint (snd kx)
                 then F0 kx = Throw cannot_serialize_bigint
                 else exists b, F0 kx = Normal b) props).
    { rewrite forallb_forall in Hp. rewrite Forall_forall in *.
      intros [k x] Hx. specialize (IH (k, x) Hx (Hp (k, x) Hx)).
      unfold F0. simpl in *. destruct (contains_bigint x).
      - now rewrite IH.
      - destruct IH as (o & -> & _). now exists (k, o). }
    apply collect_cases in Hall.
    destruct (existsb (fun kx => contains_bigint (snd kx)) props).
    + now rewrite Hall.
    + destruct Hall as (bs & ->). eexists; split; [reflexivity|]. eauto.
  - discriminate.
Qed.

(** ** Reading the text back: strings and numbers *)




















(** ** Reading the text back: values *)














(** The text of an array lists the texts of its elements in order, an
    element without a text being written [null]. *)
Lemma array_elements_in_order l o :
  JSON_stringify (JArray l) = Normal o ->
  exists parts,
    Forall2 (fun x part =>
               JSON_stringify x = Normal (Some part)
               \/ (JSON_stringify x = Normal None /\ part = "null"))
      l parts
    /\ o = Some ("[" ++ join "," parts ++ "]").
Proof.
  unfold JSON_stringify. simpl.
  destruct (collect SerializeJSONProperty l) as [os|] eqn:Hk;
    [|discriminate].
  intros [= <-]. exists (map array_element os). split; [|reflexivity].
  apply collect_inv in Hk.
  induction Hk as [|x [t|] rest os Hx _ IH]; simpl; constructor; auto.
Qed.



Example stringify_a1 :
  JSON_stringify (JObject [("a", JNumber (Finite 1 eq_refl))])
  = Normal (Some ("{" ++ quoted "a" ++ ":1}")).
Proof. reflexivity. Qed.

Example stringify_parts :
  JSON_stringify
    (JArray [JObject [("text", JString "hi")];
             JObject [("inlineData",
                       JObject [("mimeType", JString "image/png");
                                ("data", JString "AAAA")])]])
  = Normal (Some ("[{" ++ quoted "text" ++ ":" ++ quoted "hi" ++ "},{"
                  ++ quoted "inlineData" ++ ":{" ++ quoted "mimeType" ++ ":"
                  ++ quoted "image/png" ++ "," ++ quoted "data" ++ ":"
                  ++ quoted "AAAA" ++ "}}]")).
Proof. reflexivity. Qed.

Example stringify_key_order :
  JSON_stringify (JObject [("b", JNull); ("a", JNull)])
  <> JSON_stringify (JObject [("a", JNull); ("b", JNull)]).
Proof. discriminate. Qed.

Example stringify_fraction :
  JSON_stringify (JObject [("ratio", JNumber (OtherFinite "0.5" eq_refl))])
  = Normal (Some ("{" ++ quoted "ratio" ++ ":0.5}")).
Proof. reflexivity. Qed.


(** * Further properties of the handler *)

Lemma for_of_app {A} (body : A -> M unit) xs ys p :
  for_of (xs ++ ys)%list body p
  = match for_of xs body p with
    | (Normal _, p') => for_of ys body p'
    | (Throw e, p') => (Throw e, p')
    end.
Proof.
  revert p. induction xs as [|x xs IH]; intros p; simpl.
  - reflexivity.
  - unfold bind. destruct (body x p) as [[[]|e] p1]; [apply IH|reflexivity].
Qed.

Lemma name_taken_after s tools n :
  name_taken n
    {| server_name := server_name s; server_version := server_version s;
       registeredTools := (registeredTools s ++ map endpoint_of tools)%list;
       connected := connected s |}
  = orb (name_taken n s)
        (existsb (fun T => String.eqb (name T) n) tools).
Proof.
  unfold name_taken, is_registered. simpl.
  rewrite existsb_app, orb_assoc. f_equal.
  induction tools as [|T rest IH]; simpl; [reflexivity|]. now rewrite IH.
Qed.

Lemma existsb_name tools n :
  existsb (fun T => String.eqb (name T) n) tools = true
  <-> In n (map name tools).
Proof.
  rewrite existsb_exists, in_map_iff. split.
  - intros (T & HT & Heq). apply String.eqb_eq in Heq. now exists T.
  - intros (T & Heq & HT). exists T. split; [exact HT|].
    now apply String.eqb_eq.
Qed.

(** The loop stops at the first tool whose name is taken, after writing
    that tool's line. *)
Lemma for_of_register_duplicate pre t post p s :
  server p = Some s ->
  NoDup (map name pre) ->
  (forall T, In T pre -> name_taken (name T) s = false) ->
  In (name t) (map name pre) \/ name_taken (name t) s = true ->
  for_of (pre ++ t :: post)%list register p =
    (Throw (already_registered (name t)),
     {| stderr :=
          (stderr p ++ map registering_line pre ++ [registering_line t])%list;
        server :=
          Some {| server_name := server_name s;
                  server_version := server_version s;
                  registeredTools :=
                    (registeredTools s ++ map endpoint_of pre)%list;
                  connected := connected s |} |}).
Proof.
  intros Hs Hnd Hfresh Hdup.
  rewrite for_of_app, (for_of_register_ok pre p s Hs Hnd Hfresh).
  simpl. unfold bind. erewrite register_step; [|reflexivity].
  rewrite name_taken_after.
  assert (orb (name_taken (name t) s)
            (existsb (fun T => String.eqb (name T) (name t)) pre) = true)
    as ->.
  { apply orb_true_iff. destruct Hdup as [Hin|Hreg]; [right|now left].
    now apply existsb_name. }
  simpl. now rewrite <- app_assoc.
Qed.

(** X1: a failure while loading the settings, loading the configuration,
    creating the tool registry or resolving the version leaves the
    handler with that failure; nothing has been written to the error
    stream and no server has been created. *)
Theorem setup_failure_propagates env p0 e :
  loadSettings env (cwd env) = Throw e
  \/ (exists ls,
        loadSettings env (cwd env) = Normal ls
        /\ (loadCliConfig env (merged ls) (sessionId env) argv (cwd_option (cwd env))
            = Throw e
            \/ exists config,
                loadCliConfig env (merged ls) (sessionId env) argv (cwd_option (cwd env))
                = Normal config
                /\ (createToolRegistry config = Throw e
                    \/ exists reg,
                        createToolRegistry config = Normal reg
                        /\ getVersion env = Throw e))) ->
  handler env p0 = (Throw e, p0).
Proof.
  unfold handler, bind, await.
  intros [H|(ls & Hls & [H|(config & Hc & [H|(reg & Hr & H)])])].
  - now rewrite H.
  - now rewrite Hls, H.
  - now rewrite Hls, Hc, H.
  - now rewrite Hls, Hc, Hr, H.
Qed.

Lemma setup_failure_propagates_witness :
  handler (env_version_failing [read_file] (ErrorInstance "no version"))
    fresh_process
  = (Throw (ErrorInstance "no version"), fresh_process).
Proof.
  apply (setup_failure_propagates
           (env_version_failing [read_file] (ErrorInstance "no version"))
           fresh_process (ErrorInstance "no version")).
  right. exists {| merged := JObject [] |}. split; [reflexivity|].
  right. eexists. split; [reflexivity|].
  right. eexists. split; reflexivity.
Defined.

(** X2: when the registry lists a tool whose name is taken, because an
    earlier tool has it or because the server's tool table inherits it
    from [Object.prototype], and the tools before it are free of both,
    startup fails at that tool with the server's "already registered"
    error.  The tools before it are registered and their lines written,
    the line of the offending tool is written too, and the server is
    never connected nor the closing line written. *)
Theorem duplicate_name_stops_startup env p0 pre t post version :
  registry_of env = Some (pre ++ t :: post)%list ->
  getVersion env = Normal version ->
  NoDup (map name pre) ->
  (forall T, In T pre -> inherited (name T) = false) ->
  In (name t) (map name pre) \/ inherited (name t) = true ->
  handler env p0 =
    (Throw (ErrorInstance ("Tool " ++ name t ++ " is already registered")),
     {| stderr :=
          (stderr p0 ++ map registering_line pre ++ [registering_line t])%list;
        server :=
          Some {| server_name := "claude-code-gemini-cli-server";
                  server_version := string_or version "1.0.0";
                  registeredTools := map endpoint_of pre;
                  connected := false |} |}).
Proof.
  unfold handler, registry_of, bind, await.
  intros Hreg Hv Hnd Hfree Htaken.
  destruct (loadSettings env (cwd env)) as [ls|]; [|discriminate].
  destruct (loadCliConfig env (merged ls) (sessionId env) argv
              (cwd_option (cwd env)))
    as [config|]; [|discriminate].
  destruct (createToolRegistry config) as [reg|]; [|discriminate].
  injection Hreg as Hreg. rewrite Hv, Hreg. simpl.
  erewrite for_of_register_duplicate; [| reflexivity | exact Hnd | |].
  - reflexivity.
  - intros T HT. rewrite name_taken_new. now apply Hfree.
  - destruct Htaken as [Hin|Hinh]; [now left|right].
    now rewrite name_taken_new.
Qed.

Lemma duplicate_name_stops_startup_witness :
  handler (env_with [read_file; list_dir; read_file; bad_tool]) fresh_process
  = (Throw (ErrorInstance "Tool read_file is already registered"),
     {| stderr := ["Registering MCP tool: read_file";
                   "Registering MCP tool: list_dir";
                   "Registering MCP tool: read_file"];
        server :=
          Some {| server_name := "claude-code-gemini-cli-server";
                  server_version := "0.1.0";
                  registeredTools := [endpoint_of read_file;
                                      endpoint_of list_dir];
                  connected := false |} |}).
Proof.
  apply (duplicate_name_stops_startup
           (env_with [read_file; list_dir; read_file; bad_tool])
           fresh_process [read_file; list_dir] read_file [bad_tool]
           (Some "0.1.0")).
  - reflexivity.
  - reflexivity.
  - repeat constructor; simpl; intuition discriminate.
  - intros T [<-|[<-|[]]]; reflexivity.
  - left. simpl. auto.
Defined.

(** A tool named after a property that every object inherits is refused
    on its first registration. *)
Example inherited_name_refused :
  fst (handler (env_with [tool_returning "toString" None
                            (Normal (success (JString "x")))])
         fresh_process)
  = Throw (ErrorInstance "Tool toString is already registered").
Proof. reflexivity. Qed.

(** X3: when everything up to the connection succeeds and the transport
    fails to start, the handler fails with the transport's error after
    registering every tool and writing every registration line; the
    closing line is not written.  The server has taken the transport
    by then, so it counts as connected. *)
Theorem connect_failure_propagates env p0 tools version e :
  registry_of env = Some tools ->
  getVersion env = Normal version ->
  NoDup (map name tools) ->
  (forall T, In T tools -> inherited (name T) = false) ->
  transport_start env = Throw e ->
  handler env p0 =
    (Throw e,
     {| stderr := (stderr p0 ++ map registering_line tools)%list;
        server :=
          Some {| server_name := "claude-code-gemini-cli-server";
                  server_version := string_or version "1.0.0";
                  registeredTools := map endpoint_of tools;
                  connected := true |} |}).
Proof.
  unfold handler, registry_of, bind, await. intros Hreg Hv Hnd Hfree Ht.
  destruct (loadSettings env (cwd env)) as [ls|]; [|discriminate].
  destruct (loadCliConfig env (merged ls) (sessionId env) argv
              (cwd_option (cwd env)))
    as [config|]; [|discriminate].
  destruct (createToolRegistry config) as [reg|]; [|discriminate].
  injection Hreg as Hreg. rewrite Hv, Hreg. simpl.
  erewrite for_of_register_ok; [| reflexivity | exact Hnd |].
  - unfold connect. simpl. now rewrite Ht.
  - intros T HT. rewrite name_taken_new. now apply Hfree.
Qed.

Lemma connect_failure_propagates_witness :
  handler (env_connect_failing [read_file; list_dir]
             (ErrorInstance "already started")) fresh_process
  = (Throw (ErrorInstance "already started"),
     {| stderr := ["Registering MCP tool: read_file";
                   "Registering MCP tool: list_dir"];
        server :=
          Some {| server_name := "claude-code-gemini-cli-server";
                  server_version := "1.0.0";
                  registeredTools := [endpoint_of read_file;
                                      endpoint_of list_dir];
                  connected := true |} |}).
Proof.
  apply (connect_failure_propagates
           (env_connect_failing [read_file; list_dir]
              (ErrorInstance "already started"))
           fresh_process [read_file; list_dir] None
           (ErrorInstance "already started")).
  - reflexivity.
  - reflexivity.
  - repeat constructor; simpl; intuition discriminate.
  - intros T [<-|[<-|[]]]; reflexivity.
  - reflexivity.
Defined.

(** X5: when the collaborators do not fail, startup completes exactly
    when the names of the registry's tools are pairwise distinct and
    none of them is a property name that the server's tool table
    inherits from [Object.prototype]. *)
Theorem startup_completes_iff_distinct_names env p0 tools version :
  registry_of env = Some tools ->
  getVersion env = Normal version ->
  transport_start env = Normal tt ->
  (exists p, handler env p0 = (Normal tt, p))
  <-> (NoDup (map name tools)
       /\ forall T, In T tools ->
            ~ In (name T)
                [ "constructor"; "__defineGetter__"; "__defineSetter__";
                  "hasOwnProperty"; "__lookupGetter__"; "__lookupSetter__";
                  "isPrototypeOf"; "propertyIsEnumerable"; "toString";
                  "valueOf"; "__proto__"; "toLocaleString" ]).
Proof.
  intros Hreg Hv Ht.
  assert (Hinh : forall n,
             inherited n = false <-> ~ In n Object_prototype_names).
  { intros n. unfold inherited. split.
    - intros H Hin.
      assert (existsb (String.eqb n) Object_prototype_names = true).
      { apply existsb_exists. exists n. split; [exact Hin|].
        apply String.eqb_refl. }
      congruence.
    - intros H.
      destruct (existsb (String.eqb n) Object_prototype_names) eqn:E;
        [|reflexivity].
      apply existsb_exists in E as (x & Hx & Heq).
      apply String.eqb_eq in Heq. subst x. now elim H. }
  split.
  - intros (p & H).
    apply handler_inv in H
      as (tools' & _ & Hreg' & _ & _ & Hnd & _ & _ & Hfree).
    rewrite Hreg in Hreg'. injection Hreg' as <-.
    split; [exact Hnd|]. intros T HT. apply Hinh. now apply Hfree.
  - intros [Hnd Hfree]. eexists.
    apply (handler_ok env p0 tools version); auto.
    intros T HT. apply Hinh. now apply Hfree.
Qed.

Lemma startup_completes_iff_distinct_names_witness :
  (exists p,
      handler (env_with [read_file; list_dir]) fresh_process = (Normal tt, p))
  <-> (NoDup (map name [read_file; list_dir])
       /\ forall T, In T [read_file; list_dir] ->
            ~ In (name T)
                [ "constructor"; "__defineGetter__"; "__defineSetter__";
                  "hasOwnProperty"; "__lookupGetter__"; "__lookupSetter__";
                  "isPrototypeOf"; "propertyIsEnumerable"; "toString";
                  "valueOf"; "__proto__"; "toLocaleString" ]).
Proof.
  apply (startup_completes_iff_distinct_names
           (env_with [read_file; list_dir]) fresh_process
           [read_file; list_dir] (Some "0.1.0")); reflexivity.
Defined.

(** X6: after a completed startup the server carries the fixed name, is
    connected, and has as version the resolved one when that is a
    non-empty string and "1.0.0" otherwise. *)
Theorem server_identity env p0 p :
  handler env p0 = (Normal tt, p) ->
  exists s version,
    server p = Some s
    /\ getVersion env = Normal version
    /\ server_name s = "claude-code-gemini-cli-server"
    /\ connected s = true
    /\ (forall v, version = Some v -> v <> EmptyString ->
          server_version s = v)
    /\ (version = None \/ version = Some EmptyString ->
          server_version s = "1.0.0").
Proof.
  intros H.
  apply handler_inv in H
    as (tools & version & _ & Hv & _ & _ & _ & Hsrv & _).
  eexists. exists version. split; [exact Hsrv|]. simpl.
  repeat split; auto.
  - intros v -> Hne. simpl. apply String.eqb_neq in Hne. now rewrite Hne.
  - intros [-> | ->]; reflexivity.
Qed.

Lemma server_identity_witness :
  exists s version,
    server (snd (handler (env_with [read_file]) fresh_process)) = Some s
    /\ getVersion (env_with [read_file]) = Normal version
    /\ server_name s = "claude-code-gemini-cli-server"
    /\ connected s = true
    /\ (forall v, version = Some v -> v <> EmptyString ->
          server_version s = v)
    /\ (version = None \/ version = Some EmptyString ->
          server_version s = "1.0.0").
Proof.
  apply (server_identity (env_with [read_file]) fresh_process).
  reflexivity.
Defined.

(** X7: a completed startup has added to the error stream one line
    "Registering MCP tool: " and the tool's name for every tool of the
    registry, in the registry's order, and then the closing line;
    what was on the stream before is kept. *)
Theorem startup_diagnostics env p0 p :
  handler env p0 = (Normal tt, p) ->
  exists tools,
    registry_of env = Some tools
    /\ stderr p
       = (stderr p0
          ++ map (fun T => ("Registering MCP tool: " ++ name T)%string) tools
          ++ ["Claude Code Gemini CLI MCP server started on stdio"])%list.
Proof.
  intros H.
  apply handler_inv in H
    as (tools & version & Hreg & _ & _ & _ & Herr & _ & _).
  exists tools. split; [exact Hreg|exact Herr].
Qed.

Lemma startup_diagnostics_witness :
  exists tools,
    registry_of (env_with [read_file; list_dir]) = Some tools
    /\ stderr (snd (handler (env_with [read_file; list_dir])
                      {| stderr := ["earlier"]; server := None |}))
       = (["earlier"]
          ++ map (fun T => ("Registering MCP tool: " ++ name T)%string) tools
          ++ ["Claude Code Gemini CLI MCP server started on stdio"])%list.
Proof.
  apply (startup_diagnostics (env_with [read_file; list_dir])
           {| stderr := ["earlier"]; server := None |}).
  reflexivity.
Defined.

(** * Further properties of the callback *)

(** X8: arguments that are missing or otherwise falsy ([undefined],
    [null], [false], [0], [NaN], the empty string) are replaced by the
    empty object before [build] sees them: the call goes exactly as the
    call with [{}]. *)
Theorem falsy_args_default_to_empty_object tool args h :
  truthy args = false ->
  tool_callback tool args h = tool_callback tool (JObject []) h.
Proof.
  intros H. unfold tool_callback, try_block, js_or. now rewrite H.
Qed.

Lemma falsy_args_default_to_empty_object_witness :
  tool_callback echo JNull [] = tool_callback echo (JObject []) []
  /\ fst (tool_callback echo JNull [])
     = Normal {| content := [text_item (Some "{}")]; isError := None |}.
Proof.
  split.
  - apply (falsy_args_default_to_empty_object echo JNull []). reflexivity.
  - reflexivity.
Defined.

Example truthy_args_reach_build :
  fst (tool_callback echo (JObject [("path", JString "a")]) [])
  = Normal {| content :=
                [text_item (Some ("{" ++ quoted "path" ++ ":" ++ quoted "a"
                                  ++ "}"))];
              isError := None |}.
Proof. reflexivity. Qed.



(** X10: a response that a call returns is of one of three shapes.
    Without [isError] it carries the text of the content of a result
    that [build] and [execute] produced without error.  With [isError]
    true its text starts "Error: " or "Internal Error: ".  [isError] is
    never false, and the content is never empty. *)
Theorem response_shapes tool args h r :
  fst (tool_callback tool args h) = Normal r ->
  (isError r = None
   /\ exists inv result t,
       build tool (js_or args (JObject [])) = Normal inv
       /\ execute inv (List.length h)
            (h ++ [{| aborted := false |}])%list = Normal result
       /\ error result = None
       /\ textContent (llmContent result) = Normal t
       /\ content r = [{| type := "text"; text := t |}])
  \/ (isError r = Some true
      /\ exists m,
          content r
          = [{| type := "text"; text := Some ("Error: " ++ m) |}]
          \/ content r
             = [{| type := "text";
                   text := Some ("Internal Error: " ++ m) |}]).
Proof.
  assert (Hcatch : forall e,
             catch_block e = Normal r ->
             isError r = Some true
             /\ exists m,
                 content r
                 = [{| type := "text"; text := Some ("Error: " ++ m) |}]
                 \/ content r
                    = [{| type := "text";
                          text := Some ("Internal Error: " ++ m) |}]).
  { intros e H. apply catch_block_content in H as (m & ->).
    split; [reflexivity|]. exists m. now right. }
  destruct (build tool (js_or args (JObject []))) as [inv|e] eqn:Hb.
  - rewrite (tool_callback_built _ _ _ _ Hb). unfold aborted_false. simpl.
    destruct (execute inv _ _) as [result|e] eqn:He.
    + unfold respond.
      destruct (error result) as [err|] eqn:Herr.
      * intros [= <-]. right. split; [reflexivity|].
        exists (message err). now left.
      * destruct (textContent (llmContent result)) as [t|e] eqn:Ht.
        -- intros [= <-]. left. split; [reflexivity|].
           exists inv, result, t. auto.
        -- intros H. right. now apply (Hcatch e).
    + intros H. right. now apply (Hcatch e).
  - rewrite (tool_callback_build_throws _ _ _ _ Hb). simpl.
    intros H. right. now apply (Hcatch e).
Qed.

Lemma response_shapes_witness :
  (isError (error_response {| message := "bad input" |}) = None
   /\ exists inv result t,
       build bad_tool (js_or JUndefined (JObject [])) = Normal inv
       /\ execute inv 0%nat [{| aborted := false |}] = Normal result
       /\ error result = None
       /\ textContent (llmContent result) = Normal t
       /\ content (error_response {| message := "bad input" |})
          = [{| type := "text"; text := t |}])
  \/ (isError (error_response {| message := "bad input" |}) = Some true
      /\ exists m,
          content (error_response {| message := "bad input" |})
          = [{| type := "text"; text := Some ("Error: " ++ m) |}]
          \/ content (error_response {| message := "bad input" |})
             = [{| type := "text";
                   text := Some ("Internal Error: " ++ m) |}]).
Proof.
  apply (response_shapes bad_tool JUndefined []). reflexivity.
Defined.

(** X11: a result without error whose content is plain data and holds
    a [BigInt] anywhere inside is answered with the internal error of
    the failed serialisation. *)
Theorem bigint_content_is_internal_error tool args h inv result :
  build tool (js_or args (JObject [])) = Normal inv ->
  execute inv (List.length h) (h ++ [{| aborted := false |}])%list
  = Normal result ->
  error result = None ->
  plain (llmContent result) = true ->
  contains_bigint (llmContent result) = true ->
  fst (tool_callback tool args h)
  = Normal {| content :=
                [{| type := "text";
                    text := Some ("Internal Error: "
                                  ++ "Do not know how to serialize a BigInt")
                 |}];
              isError := Some true |}.
Proof.
  intros Hb He Herr Hp Hbig.
  rewrite (tool_callback_built _ _ _ _ Hb). unfold aborted_false. simpl.
  rewrite He. unfold respond, textContent. rewrite Herr.
  pose proof (serialize_cases (llmContent result) Hp) as Hc.
  rewrite Hbig in Hc.
  destruct (llmContent result); try discriminate Hbig;
    unfold JSON_stringify; rewrite Hc; reflexivity.
Qed.

Lemma bigint_content_is_internal_error_witness :
  fst (tool_callback bigint_tool JUndefined [])
  = Normal {| content :=
                [{| type := "text";
                    text := Some ("Internal Error: "
                                  ++ "Do not know how to serialize a BigInt")
                 |}];
              isError := Some true |}.
Proof.
  apply (bigint_content_is_internal_error bigint_tool JUndefined []
           (invocation_returning (Normal (success bigint_content)))
           (success bigint_content)); reflexivity.
Defined.

Lemma collect_total {A B} (f : A -> Completion B) l :
  Forall (fun x => exists b, f x = Normal b) l ->
  exists bs, collect f l = Normal bs.
Proof.
  induction 1 as [|x rest (b & Hx) _ (bs & IH)]; simpl.
  - now exists [].
  - rewrite Hx, IH. now exists (b :: bs).
Qed.

(** X12: a result without error whose content is an array none of
    whose elements fails to serialise is answered, without [isError],
    with the bracketed, comma-separated texts of the elements in their
    order; an element without a text, such as [undefined], appears as
    [null]. *)
Theorem array_content_response tool args h inv result l :
  build tool (js_or args (JObject [])) = Normal inv ->
  execute inv (List.length h) (h ++ [{| aborted := false |}])%list
  = Normal result ->
  error result = None ->
  llmContent result = JArray l ->
  Forall (fun x => exists o, JSON_stringify x = Normal o) l ->
  exists parts,
    Forall2 (fun x part =>
               JSON_stringify x = Normal (Some part)
               \/ (JSON_stringify x = Normal None /\ part = "null"))
      l parts
    /\ fst (tool_callback tool args h)
       = Normal {| content :=
                     [{| type := "text";
                         text := Some ("[" ++ join "," parts ++ "]") |}];
                   isError := None |}.
Proof.
  intros Hb He Herr Hc Hall.
  assert (Hs : exists o, JSON_stringify (JArray l) = Normal o).
  { apply collect_total in Hall as (os & Hos).
    change (collect SerializeJSONProperty l = Normal os) in Hos.
    unfold JSON_stringify. simpl. rewrite Hos. eauto. }
  destruct Hs as (o & Hs).
  destruct (array_elements_in_order l o Hs) as (parts & Hparts & ->).
  exists parts. split; [exact Hparts|].
  rewrite (tool_callback_built _ _ _ _ Hb). unfold aborted_false. simpl.
  rewrite He. unfold respond, textContent. rewrite Herr, Hc, Hs.
  reflexivity.
Qed.

Lemma array_content_response_witness :
  exists parts,
    Forall2 (fun x part =>
               JSON_stringify x = Normal (Some part)
               \/ (JSON_stringify x = Normal None /\ part = "null"))
      [JObject [("text", JString "hi")]; JUndefined;
       JNumber (Finite 2 eq_refl)]
      parts
    /\ fst (tool_callback
              (tool_returning "parts" None
                 (Normal (success
                    (JArray [JObject [("text", JString "hi")];
                             JUndefined; JNumber (Finite 2 eq_refl)]))))
              JUndefined [])
       = Normal {| content :=
                     [{| type := "text";
                         text := Some ("[" ++ join "," parts ++ "]") |}];
                   isError := None |}.
Proof.
  apply (array_content_response _ JUndefined []
           (invocation_returning
              (Normal (success
                 (JArray [JObject [("text", JString "hi")];
                          JUndefined; JNumber (Finite 2 eq_refl)]))))
           (success
              (JArray [JObject [("text", JString "hi")];
                       JUndefined; JNumber (Finite 2 eq_refl)])));
    try reflexivity.
  repeat constructor; eexists; reflexivity.
Defined.

Example array_with_undefined :
  fst (tool_callback
         (tool_returning "parts" None
            (Normal (success
               (JArray [JObject [("text", JString "hi")];
                        JUndefined; JNumber (Finite 2 eq_refl)]))))
         JUndefined [])
  = Normal {| content :=
                [text_item (Some ("[{" ++ quoted "text" ++ ":" ++ quoted "hi"
                                  ++ "},null,2]"))];
              isError := None |}.
Proof. reflexivity. Qed.

(** X13: the response does not tell a structured content from the
    string that holds its JSON text: for a content that is not itself a
    string and has the JSON text [s], the result carrying the content
    and the result carrying the string [s] are answered alike. *)
Theorem text_and_structure_answered_alike c s :
  (forall s', c <> JString s') ->
  JSON_stringify c = Normal (Some s) ->
  respond {| error := None; llmContent := JString s |}
  = respond {| error := None; llmContent := c |}
  /\ respond {| error := None; llmContent := c |}
     = Normal {| content := [{| type := "text"; text := Some s |}];
                 isError := None |}.
Proof.
  intros Hns Hs. unfold respond, textContent. simpl.
  destruct c as [| | | | |s0| | | |]; try (rewrite Hs; split; reflexivity).
  now elim (Hns s0).
Qed.

Lemma text_and_structure_answered_alike_witness :
  respond {| error := None; llmContent := JString "[1,true]" |}
  = respond {| error := None;
               llmContent := JArray [JNumber (Finite 1 eq_refl);
                                     JBool true] |}
  /\ respond {| error := None;
                llmContent := JArray [JNumber (Finite 1 eq_refl);
                                      JBool true] |}
     = Normal {| content := [{| type := "text"; text := Some "[1,true]" |}];
                 isError := None |}.
Proof.
  apply (text_and_structure_answered_alike
           (JArray [JNumber (Finite 1 eq_refl); JBool true]) "[1,true]").
  - intros s' H. discriminate H.
  - reflexivity.
Defined.
